(** * The quickstart workflow of [examples/quickstart/before.py]

    The script loads a [.env] file, opens an [OpenAI] client in a [with]
    block, sends one chat-completion request inside the block and prints
    the response after it.

    The script's own text is embedded as a program in a state-and-exception
    monad over the process ([os.environ], the [.env] file, standard output,
    the module's global names) together with the list of calls it makes.
    What the [openai] package does at each call is not part of the
    repository, and neither is what becomes of a write to standard
    output: both are a parameter ([Library]), so that every theorem about
    the script holds whatever the package, the remote service and the
    process answer. *)

From Stdlib Require Import Ascii String.
From stdpp Require Import base option list strings gmap pretty.

Local Open Scope string_scope.
Local Open Scope list_scope.
Set Warnings "-register-all".

(** ** Data model *)

(** The exception classes of the spec's taxonomy; [NameError], which
    Python raises for a name that was never bound; and [OSError], for an
    I/O failure of the process itself. *)
Inductive ErrClass :=
| AuthenticationError
| ConnectionError
| ValidationError
| ServiceError
| NameError
| OSError.

Record Exn := mkExn { exn_class : ErrClass; exn_msg : string }.

#[global] Instance ErrClass_eq_dec : EqDecision ErrClass.
Proof. solve_decision. Defined.
#[global] Instance Exn_eq_dec : EqDecision Exn.
Proof. solve_decision. Defined.

(** A message of a request: the dict literal [{"role": ..., "content": ...}]. *)
Record Message := mkMessage { role : string; content : string }.

(** The keyword arguments of [client.chat.completions.create]. *)
Record CompletionRequest := mkRequest { model : string; messages : list Message }.

#[global] Instance Message_eq_dec : EqDecision Message.
Proof. solve_decision. Defined.
#[global] Instance CompletionRequest_eq_dec : EqDecision CompletionRequest.
Proof. solve_decision. Defined.

(** Python values as [print] sees them: the response is an object whose
    class and fields are the package's, so it is kept structural. A
    string is a sequence of code points below 256 (not of UTF-8 bytes);
    values holding other characters, or floats, are outside this type. *)
Inductive PyVal :=
| PyNone
| PyBool (b : bool)
| PyInt (z : Z)
| PyStr (s : string)
| PyList (vs : list PyVal)
| PyObj (cls : string) (fields : list (string * PyVal)).

(** The client object: a handle, its state is the package's. *)
Inductive Client := ClientHandle (id : nat).

#[global] Instance Client_eq_dec : EqDecision Client.
Proof. solve_decision. Defined.

(** How a call ends. *)
Inductive Outcome (A : Type) :=
| Returned (a : A)
| Raised (e : Exn).
Arguments Returned {A} a.
Arguments Raised {A} e.

(** The calls the script makes, in the order it makes them. [EvInit]
    records the environment the constructor reads, [EvExit] the exception
    handed to [__exit__], [EvPrint] the text that was written. *)
Inductive Event :=
| EvLoadDotenv
| EvInit (env : gmap string string)
| EvEnter (mgr : Client)
| EvCreate (client : Client) (req : CompletionRequest)
| EvExit (mgr : Client) (exc : option Exn)
| EvPrint (text : string).

#[global] Instance Event_eq_dec : EqDecision Event.
Proof. solve_decision. Defined.

(** The process: [os.environ], the parsed [.env] file when there is one,
    what was written to standard output, the module's two global names and
    the calls made so far. *)
Record World := mkWorld {
  environ : gmap string string;
  dotenv_file : option (list (string * string));
  stdout : string;
  g_client : option Client;
  g_response : option PyVal;
  trace : list Event;
}.

(** ** The state-and-exception monad *)

Definition M (A : Type) : Type := World -> Outcome A * World.

Definition ret {A} (a : A) : M A := fun w => (Returned a, w).

Definition raise {A} (e : Exn) : M A := fun w => (Raised e, w).

Definition bind {A B} (m : M A) (k : A -> M B) : M B :=
  fun w =>
    match m w with
    | (Returned a, w') => k a w'
    | (Raised e, w') => (Raised e, w')
    end.

Declare Scope py_scope.
Delimit Scope py_scope with py.
Notation "x <- m ;; k" := (bind m (fun x => k))
  (at level 100, m at next level, right associativity) : py_scope.
Notation "m ;;; k" := (bind m (fun _ => k))
  (at level 100, right associativity) : py_scope.
Local Open Scope py_scope.

Definition emit (ev : Event) : M unit :=
  fun w =>
    (Returned tt,
     {| environ := environ w; dotenv_file := dotenv_file w; stdout := stdout w;
        g_client := g_client w; g_response := g_response w;
        trace := trace w ++ [ev] |}).

Definition of_outcome {A} (o : Outcome A) : M A :=
  fun w => (o, w).

Definition set_environ (env : gmap string string) (w : World) : World :=
  {| environ := env; dotenv_file := dotenv_file w; stdout := stdout w;
     g_client := g_client w; g_response := g_response w; trace := trace w |}.

Definition write_stdout (text : string) (w : World) : World :=
  {| environ := environ w; dotenv_file := dotenv_file w;
     stdout := stdout w +:+ text;
     g_client := g_client w; g_response := g_response w; trace := trace w |}.

Definition set_client (c : Client) (w : World) : World :=
  {| environ := environ w; dotenv_file := dotenv_file w; stdout := stdout w;
     g_client := Some c; g_response := g_response w; trace := trace w |}.

Definition set_response (r : PyVal) (w : World) : World :=
  {| environ := environ w; dotenv_file := dotenv_file w; stdout := stdout w;
     g_client := g_client w; g_response := Some r; trace := trace w |}.

(** ** Python's [repr], [str] and [print] *)

(** Characters are code points below 256. [str.isprintable] on them:
    the ASCII range 32..126, and 161..255 without the soft hyphen (173). *)
Definition isprintable (c : ascii) : bool :=
  let n := N_of_ascii c in
  ((32 <=? n) && (n <? 127) || (161 <=? n) && negb (n =? 173))%N.

Definition hex_digit (n : N) : ascii :=
  if (n <? 10)%N then ascii_of_N (48 + n) else ascii_of_N (87 + n).

Fixpoint has_char (c : ascii) (s : string) : bool :=
  match s with
  | EmptyString => false
  | String d s' => if Ascii.eqb c d then true else has_char c s'
  end.

(** The quote [repr] picks: double quotes only when the text has a single
    quote and no double quote. *)
Definition dquote : ascii := "034".

Definition repr_quote (s : string) : ascii :=
  if has_char "'" s && negb (has_char dquote s) then dquote else "'"%char.

Definition repr_char (quote c : ascii) : string :=
  if Ascii.eqb c quote || Ascii.eqb c "\" then String "\" (String c "")
  else if Ascii.eqb c "009" then "\t"
  else if Ascii.eqb c "010" then "\n"
  else if Ascii.eqb c "013" then "\r"
  else if isprintable c then String c ""
  else let n := N_of_ascii c in
       String "\" (String "x" (String (hex_digit (n / 16)) (String (hex_digit (n mod 16)) ""))).

Fixpoint repr_body (quote : ascii) (s : string) : string :=
  match s with
  | EmptyString => ""
  | String c s' => repr_char quote c +:+ repr_body quote s'
  end.

Definition py_repr_str (s : string) : string :=
  let q := repr_quote s in
  String q (repr_body q s) +:+ String q "".

(** [repr] of a value. An object of the package's model classes shows as
    [Class(field=repr, ...)], a list as [[repr, ...]]. *)
Fixpoint py_repr (v : PyVal) : string :=
  match v with
  | PyNone => "None"
  | PyBool b => if b then "True" else "False"
  | PyInt z => pretty z
  | PyStr s => py_repr_str s
  | PyList vs => "[" +:+ String.concat ", " (map py_repr vs) +:+ "]"
  | PyObj cls fields =>
      cls +:+ "(" +:+
      String.concat ", "
        (map (fun fv => let '(f, x) := fv in f +:+ "=" +:+ py_repr x) fields)
      +:+ ")"
  end.

(** [str(v)]: a string is itself, anything else shows as its [repr]. *)
Definition py_str (v : PyVal) : string :=
  match v with
  | PyStr s => s
  | _ => py_repr v
  end.

Definition newline : string := String "010" "".


(** Characters that [repr] copies as they are under quote [q]: printable,
    and neither the quote nor the backslash. *)
Definition plain_char (q c : ascii) : bool :=
  isprintable c && negb (Ascii.eqb c q) && negb (Ascii.eqb c "\").

Fixpoint all_chars (p : ascii -> bool) (s : string) : bool :=
  match s with
  | EmptyString => true
  | String c s' => p c && all_chars p s'
  end.

(** The printable ASCII characters, codes 32 to 126. *)
Definition is_ascii_printable (c : ascii) : bool :=
  let n := N_of_ascii c in ((32 <=? n) && (n <? 127))%N.

(** Text that [repr] shows between its quotes unchanged: printable ASCII
    characters only, no backslash, and not both kinds of quote. *)
Definition verbatim_safe (s : string) : bool :=
  all_chars is_ascii_printable s
  && negb (has_char "\" s)
  && negb (has_char "'" s && has_char dquote s).

(** ** The [with] statement *)

(** The context-manager protocol: [__enter__] gives the value bound by
    [as]; [__exit__] receives the exception that left the block, if any,
    and its result read as a truth value says whether to swallow it. *)
Class ContextManager (T V : Type) := {
  cm_enter : T -> M V;
  cm_exit : T -> option Exn -> M bool;
}.

(** [with EXPR as VAR: BLOCK]. The manager is evaluated and entered
    outside any handler; once entered, [__exit__] runs whether the block
    returns or raises. An exception of the block is raised again unless
    [__exit__] answers true; an exception of [__exit__] itself replaces it. *)
Definition with_as {T V} `{ContextManager T V}
    (mgr_expr : M T) (block : V -> M unit) : M unit :=
  mgr <- mgr_expr ;;
  value <- cm_enter mgr ;;
  fun w =>
    match block value w with
    | (Returned _, w1) => (cm_exit mgr None ;;; ret tt) w1
    | (Raised e, w1) =>
        match cm_exit mgr (Some e) w1 with
        | (Returned true, w2) => (Returned tt, w2)
        | (Returned false, w2) => (Raised e, w2)
        | (Raised e', w2) => (Raised e', w2)
        end
    end.

(** ** The packages the script calls *)

(** Modelled from the spec: [load_dotenv] is the [python-dotenv] package's
    function, which is not under [src/]. The spec (4.1) has it "merge
    configuration from a local environment-configuration source into the
    process's environment variable table (no-op if no such source exists)";
    the file (6) is "a simple KEY=VALUE-per-line text format", taken here
    already split into its bindings, in file order. The spec does not say
    which side wins for a key that both define; the package's [override]
    argument decides that, and a variable that is already set keeps its
    value unless [override] is true. *)
Definition set_binding (override : bool) (env acc : gmap string string)
    (kv : string * string) : gmap string string :=
  let '(k, v) := kv in
  if override || bool_decide (env !! k = None) then <[k := v]> acc else acc.

(** Modelled from the spec: the loader's merge, binding by binding in file
    order (see [set_binding]); [env] is the environment it starts from. *)
Definition set_as_environment_variables (override : bool)
    (bindings : list (string * string)) (env : gmap string string)
    : gmap string string :=
  foldl (set_binding override env) env bindings.

(** Modelled from the spec: [load_dotenv(override=...)], see
    [set_as_environment_variables]. It answers whether a file was found. *)
Definition load_dotenv (override : bool) : M bool :=
  emit EvLoadDotenv ;;;
  fun w =>
    match dotenv_file w with
    | None => (Returned false, w)
    | Some bindings =>
        (Returned true,
         set_environ (set_as_environment_variables override bindings (environ w)) w)
    end.

(** What the [openai] package and the remote service answer at each call
    of the script. The constructor reads the environment; [lib_exit] is
    [__exit__]'s result as a truth value. [lib_print v] is the error, if
    any, that printing [v] meets: the [__str__] of the package's class
    raising, or the write to [sys.stdout] failing (an encoding or I/O
    error). *)
Record Library := {
  lib_init : gmap string string -> Outcome Client;
  lib_enter : Client -> Outcome Client;
  lib_create : Client -> CompletionRequest -> Outcome PyVal;
  lib_exit : Client -> option Exn -> Outcome bool;
  lib_print : PyVal -> option Exn;
}.

(** ** The script *)

(** Binding and reading the module's names. Reading a name that was never
    bound raises [NameError]. *)
Definition assign_client (c : Client) : M unit :=
  fun w => (Returned tt, set_client c w).

Definition assign_response (r : PyVal) : M unit :=
  fun w => (Returned tt, set_response r w).

Definition name_error : Exn := mkExn NameError "name 'response' is not defined".

Definition name_response : M PyVal :=
  fun w =>
    match g_response w with
    | Some r => (Returned r, w)
    | None => raise name_error w
    end.

Section Workflow.

Variable lib : Library.

(** [OpenAI()] *)
Definition OpenAI : M Client :=
  fun w => (emit (EvInit (environ w)) ;;; of_outcome (lib_init lib (environ w))) w.

#[export] Instance Client_ContextManager : ContextManager Client Client := {|
  cm_enter mgr := emit (EvEnter mgr) ;;; of_outcome (lib_enter lib mgr);
  cm_exit mgr exc := emit (EvExit mgr exc) ;;; of_outcome (lib_exit lib mgr exc);
|}.

(** [client.chat.completions.create(model=..., messages=...)] *)
Definition chat_completions_create (client : Client)
    (model : string) (messages : list Message) : M PyVal :=
  let req := mkRequest model messages in
  emit (EvCreate client req) ;;;
  of_outcome (lib_create lib client req).

(** [print(v)] writes [str(v)] and a newline to standard output, unless
    printing [v] raises; then nothing is written. *)
Definition print (v : PyVal) : M unit :=
  fun w =>
    match lib_print lib v with
    | Some e => (Raised e, w)
    | None =>
        let text := py_str v +:+ newline in
        emit (EvPrint text) (write_stdout text w)
    end.

(** [print(response)]: the name is read, then its value is printed. *)
Definition print_response : M unit :=
  response <- name_response ;;
  print response.

(** The module body, statement by statement. [load_dotenv()] leaves
    [override] at the package's default, false. *)
Definition main : M unit :=
  load_dotenv false ;;;
  with_as OpenAI (fun client =>
    assign_client client ;;;
    response <- chat_completions_create client "gpt-4o-mini"
                  [ mkMessage "user" "Write a haiku about artificial intelligence." ] ;;
    assign_response response) ;;;
  print_response.

End Workflow.

(** A process at its start: nothing written, no name bound, no call made. *)
Definition start (env : gmap string string)
    (file : option (list (string * string))) : World :=
  mkWorld env file "" None None [].

Definition run (lib : Library) (env : gmap string string)
    (file : option (list (string * string))) : Outcome unit * World :=
  main lib (start env file).

(** ** Reading a run *)

(** The request the spec's scenario A describes. *)
Definition quickstart_request : CompletionRequest :=
  {| model := "gpt-4o-mini";
     messages := [ {| role := "user";
                      content := "Write a haiku about artificial intelligence." |} ] |}.

(** The environment once the loader has run. *)
Definition loaded_environ (env : gmap string string)
    (file : option (list (string * string))) : gmap string string :=
  environ (load_dotenv false (start env file)).2.

(** The requests sent through a client, and the releases, in order. *)
Definition requests (tr : list Event) : list (Client * CompletionRequest) :=
  omap (fun ev => match ev with EvCreate c req => Some (c, req) | _ => None end) tr.

Definition releases (tr : list Event) : list (Client * option Exn) :=
  omap (fun ev => match ev with EvExit mgr exc => Some (mgr, exc) | _ => None end) tr.

(** The steps of the workflow: the loader, the client's construction and
    its entering by the [with] statement, the request, the client's
    release, the rendering. *)
Inductive Step :=
| StLoader
| StConstruct
| StEnter
| StRequest
| StRelease
| StRender.

#[global] Instance Step_eq_dec : EqDecision Step.
Proof. solve_decision. Defined.

Definition step_of (ev : Event) : Step :=
  match ev with
  | EvLoadDotenv => StLoader
  | EvInit _ => StConstruct
  | EvEnter _ => StEnter
  | EvCreate _ _ => StRequest
  | EvExit _ _ => StRelease
  | EvPrint _ => StRender
  end.

Definition steps (tr : list Event) : list Step := map step_of tr.

(** The order the spec states, and the order of the script's text. *)
Definition spec_order : list Step :=
  [StLoader; StConstruct; StEnter; StRequest; StRender; StRelease].

Definition code_order : list Step :=
  [StLoader; StConstruct; StEnter; StRequest; StRelease; StRender].

(** The exception a block's outcome hands to [__exit__]. *)
Definition exc_of {A} (o : Outcome A) : option Exn :=
  match o with
  | Returned _ => None
  | Raised e => Some e
  end.

(** [s] occurs in [t]. *)
Definition contains (s t : string) : Prop :=
  exists pre post, t = pre +:+ s +:+ post.

(** A string that is a field, at any depth, of a value. *)
Inductive str_leaf (s : string) : PyVal -> Prop :=
| leaf_here : str_leaf s (PyStr s)
| leaf_item vs v : In v vs -> str_leaf s v -> str_leaf s (PyList vs)
| leaf_field cls fields f v :
    In (f, v) fields -> str_leaf s v -> str_leaf s (PyObj cls fields).


(** ** The constructor's credential gate *)

(** Modelled from the spec: the constructor of the [openai] package's
    client is not under [src/]. The spec (4.1, P1) says that "if the
    authentication environment variable is unset, constructing the Service
    Client must fail with [AuthenticationError] before any network call is
    attempted". [auth_var] is the variable's name, which the spec leaves
    to the package; with the variable set the constructor answers what the
    package answers ([init]). *)
Definition gated_init (auth_var : string)
    (init : gmap string string -> Outcome Client)
    (env : gmap string string) : Outcome Client :=
  match env !! auth_var with
  | None => Raised (mkExn AuthenticationError "the api_key client option must be set")
  | Some _ => init env
  end.

Definition with_credential_gate (auth_var : string) (lib : Library) : Library :=
  {| lib_init := gated_init auth_var (lib_init lib);
     lib_enter := lib_enter lib;
     lib_create := lib_create lib;
     lib_exit := lib_exit lib;
     lib_print := lib_print lib |}.

(** The errors a run of the script can meet: the call that raises, and
    the calls before it that returned. *)
Inductive raises (lib : Library) (env' : gmap string string) (e : Exn) : Prop :=
| raises_construct :
    lib_init lib env' = Raised e -> raises lib env' e
| raises_enter mgr :
    lib_init lib env' = Returned mgr ->
    lib_enter lib mgr = Raised e -> raises lib env' e
| raises_request mgr c :
    lib_init lib env' = Returned mgr ->
    lib_enter lib mgr = Returned c ->
    lib_create lib c quickstart_request = Raised e -> raises lib env' e
| raises_release mgr c r :
    lib_init lib env' = Returned mgr ->
    lib_enter lib mgr = Returned c ->
    lib_create lib c quickstart_request = Returned r ->
    lib_exit lib mgr None = Raised e -> raises lib env' e.

(** The run reaches the request: the client was built and entered. *)
Definition reaches_request (lib : Library) (env' : gmap string string) : Prop :=
  exists mgr c, lib_init lib env' = Returned mgr /\ lib_enter lib mgr = Returned c.

(** ** Sample services *)

Definition haiku : string :=
  "Silent circuits hum / Thoughts emerge from data streams / Mind without a soul".

(** A response with one assistant message, in the package's shape. *)
Definition haiku_response : PyVal :=
  PyObj "ChatCompletion"
    [ ("id", PyStr "chatcmpl-1");
      ("choices",
       PyList [ PyObj "Choice"
                  [ ("finish_reason", PyStr "stop");
                    ("index", PyInt 0);
                    ("logprobs", PyNone);
                    ("message",
                     PyObj "ChatCompletionMessage"
                       [ ("content", PyStr haiku);
                         ("refusal", PyNone);
                         ("role", PyStr "assistant") ]) ] ]);
      ("created", PyInt 1700000000);
      ("model", PyStr "gpt-4o-mini");
      ("object", PyStr "chat.completion") ].

(** A service that answers the haiku; [__exit__] returns [None]. *)
Definition mock_service : Library :=
  {| lib_init := fun _ => Returned (ClientHandle 0);
     lib_enter := fun mgr => Returned mgr;
     lib_create := fun _ _ => Returned haiku_response;
     lib_exit := fun _ _ => Returned false;
     lib_print := fun _ => None |}.

(** A service that answers every request with a rate-limit error. *)
Definition rate_limit : Exn := mkExn ServiceError "429 Too Many Requests".

Definition rate_limited_service : Library :=
  {| lib_init := fun _ => Returned (ClientHandle 0);
     lib_enter := fun mgr => Returned mgr;
     lib_create := fun _ _ => Raised rate_limit;
     lib_exit := fun _ _ => Returned false;
     lib_print := fun _ => None |}.

(** An endpoint that cannot be reached when the client is built. *)
Definition unreachable : Exn := mkExn ConnectionError "connection refused".

Definition unreachable_service : Library :=
  {| lib_init := fun _ => Raised unreachable;
     lib_enter := fun mgr => Returned mgr;
     lib_create := fun _ _ => Returned haiku_response;
     lib_exit := fun _ _ => Returned false;
     lib_print := fun _ => None |}.

(** A manager whose [__exit__] swallows the exception it is handed. *)
Definition swallowing_service : Library :=
  {| lib_init := fun _ => Returned (ClientHandle 0);
     lib_enter := fun mgr => Returned mgr;
     lib_create := fun _ _ => Raised rate_limit;
     lib_exit := fun _ _ => Returned true;
     lib_print := fun _ => None |}.

(** A message whose content has an apostrophe. *)
Definition quoted_reply : PyVal :=
  PyObj "ChatCompletionMessage"
    [ ("content", PyStr "It's a machine's dream"); ("role", PyStr "assistant") ].

(** A service that answers that message. *)
Definition quoting_service : Library :=
  {| lib_init := fun _ => Returned (ClientHandle 0);
     lib_enter := fun mgr => Returned mgr;
     lib_create := fun _ _ => Returned quoted_reply;
     lib_exit := fun _ _ => Returned false;
     lib_print := fun _ => None |}.

(** A service that answers the haiku, with a client whose closing fails. *)
Definition close_error : Exn := mkExn ConnectionError "error while closing".

Definition failing_close_service : Library :=
  {| lib_init := fun _ => Returned (ClientHandle 0);
     lib_enter := fun mgr => Returned mgr;
     lib_create := fun _ _ => Returned haiku_response;
     lib_exit := fun _ exc =>
       match exc with
       | None => Raised close_error
       | Some _ => Returned false
       end;
     lib_print := fun _ => None |}.

(** A service that answers the haiku, in a process whose standard output
    is closed: printing raises. *)
Definition closed_pipe : Exn := mkExn OSError "broken pipe".

Definition closed_stdout_service : Library :=
  {| lib_init := fun _ => Returned (ClientHandle 0);
     lib_enter := fun mgr => Returned mgr;
     lib_create := fun _ _ => Returned haiku_response;
     lib_exit := fun _ _ => Returned false;
     lib_print := fun _ => Some closed_pipe |}.

Definition sample_environ : gmap string string :=
  {[ "OPENAI_API_KEY" := "sk-test" ]}.

Definition sample_dotenv : list (string * string) :=
  [ ("OPENAI_API_KEY", "sk-from-file"); ("OPENAI_ORG_ID", "org-1") ].

(** Closes a goal of [run_steps] once the run is known: [k] steps taken. *)
Ltac taken k :=
  exists k; split; [reflexivity|]; split; [lia|];
  split; intros; first [reflexivity | discriminate].

(** ** The run, case by case *)

Lemma loaded_environ_eq env file :
  loaded_environ env file =
  match file with
  | None => env
  | Some bindings => set_as_environment_variables false bindings env
  end.
Proof. unfold loaded_environ. destruct file; reflexivity. Qed.

(** Every run of the script is one of eight, told apart by what the
    package answers and by whether printing raises. *)
Lemma run_cases lib env file :
  let env' := loaded_environ env file in
  let t0 := [EvLoadDotenv; EvInit env'] in
  run lib env file =
  match lib_init lib env' with
  | Raised e => (Raised e, mkWorld env' file "" None None t0)
  | Returned mgr =>
    let t1 := t0 ++ [EvEnter mgr] in
    match lib_enter lib mgr with
    | Raised e => (Raised e, mkWorld env' file "" None None t1)
    | Returned c =>
      let t2 := t1 ++ [EvCreate c quickstart_request] in
      match lib_create lib c quickstart_request with
      | Returned r =>
        let t3 := t2 ++ [EvExit mgr None] in
        match lib_exit lib mgr None with
        | Returned _ =>
            match lib_print lib r with
            | None =>
                let text := py_str r +:+ newline in
                (Returned tt,
                 mkWorld env' file text (Some c) (Some r) (t3 ++ [EvPrint text]))
            | Some e => (Raised e, mkWorld env' file "" (Some c) (Some r) t3)
            end
        | Raised e => (Raised e, mkWorld env' file "" (Some c) (Some r) t3)
        end
      | Raised e =>
        let w3 := mkWorld env' file "" (Some c) None (t2 ++ [EvExit mgr (Some e)]) in
        match lib_exit lib mgr (Some e) with
        | Returned true => (Raised name_error, w3)
        | Returned false => (Raised e, w3)
        | Raised e' => (Raised e', w3)
        end
      end
    end
  end.
Proof.
  cbv zeta. rewrite loaded_environ_eq.
  unfold run, main, with_as, load_dotenv, OpenAI, chat_completions_create,
    assign_client, assign_response, print_response, name_response, raise, print,
    bind, emit, of_outcome, ret, start, quickstart_request, name_error; cbn.
  destruct file as [bindings|]; cbn;
    (destruct (lib_init lib _) as [mgr|e]; cbn; [|reflexivity]);
    (destruct (lib_enter lib mgr) as [c|e]; cbn; [|reflexivity]);
    (destruct (lib_create lib c _) as [r|e]; cbn;
       [destruct (lib_exit lib mgr None) as [b|e']; cbn;
          [destruct (lib_print lib r)|]
       |destruct (lib_exit lib mgr (Some e)) as [[|]|e']]; reflexivity).
Qed.

(** ** Release of the client *)

(** C1. On every exit path of a run that reaches the request -- the
    request returns, or it raises an error of whatever class -- the client
    is released exactly once: the run calls [__exit__] once, on the
    manager it built, with the exception that left the block if any. *)
Theorem release_exactly_once lib env file mgr c :
  lib_init lib (loaded_environ env file) = Returned mgr ->
  lib_enter lib mgr = Returned c ->
  let tr := trace (run lib env file).2 in
  releases tr = [(mgr, exc_of (lib_create lib c quickstart_request))]
  /\ length (releases tr) = 1.
Proof.
  intros Hinit Henter. cbv zeta.
  pose proof (run_cases lib env file) as Hrun. cbv zeta in Hrun.
  rewrite Hinit, Henter in Hrun. rewrite Hrun. clear Hrun.
  destruct (lib_create lib c quickstart_request) as [r|e]; simpl.
  - destruct (lib_exit lib mgr None); [destruct (lib_print lib r)|];
      split; reflexivity.
  - destruct (lib_exit lib mgr (Some e)) as [[|]|]; split; reflexivity.
Qed.

Lemma release_exactly_once_witness :
  releases (trace (run rate_limited_service sample_environ None).2)
  = [(ClientHandle 0, Some rate_limit)]
  /\ length (releases (trace (run rate_limited_service sample_environ None).2)) = 1.
Proof.
  exact (release_exactly_once rate_limited_service sample_environ None
           (ClientHandle 0) (ClientHandle 0) eq_refl eq_refl).
Defined.

(** ** Order of the steps *)

Lemma code_order_NoDup : NoDup code_order.
Proof. apply (bool_decide_unpack _). by compute. Qed.

Lemma run_steps lib env file :
  exists n, steps (trace (run lib env file).2) = take n code_order
            /\ n <= 6
            /\ ((run lib env file).1 = Returned tt <-> n = 6).
Proof.
  pose proof (run_cases lib env file) as Hrun. cbv zeta in Hrun.
  rewrite Hrun. clear Hrun.
  destruct (lib_init lib _) as [mgr|e]; [|taken 2].
  destruct (lib_enter lib mgr) as [c|e]; [|taken 3].
  destruct (lib_create lib c _) as [r|e].
  - destruct (lib_exit lib mgr None); [|taken 5].
    destruct (lib_print lib r); [taken 5|taken 6].
  - destruct (lib_exit lib mgr (Some e)) as [[|]|]; taken 5.
Qed.

(** C3, as the spec states it, fails: in a run that succeeds the client is
    released before the response is rendered, not after. *)
Lemma spec_order_counterexample :
  (run mock_service sample_environ None).1 = Returned tt
  /\ steps (trace (run mock_service sample_environ None).2) = code_order
  /\ steps (trace (run mock_service sample_environ None).2) <> spec_order.
Proof. repeat split. discriminate. Qed.

(** C3, amended. The steps of every run are an initial part of one line:
    loader, client construction, entering, request, client release,
    rendering. No step is taken twice, none out of this order, and a run
    that returns has taken all of them. *)
Theorem steps_linear lib env file :
  steps (trace (run lib env file).2) `prefix_of` code_order
  /\ NoDup (steps (trace (run lib env file).2))
  /\ ((run lib env file).1 = Returned tt ->
      steps (trace (run lib env file).2) = code_order).
Proof.
  destruct (run_steps lib env file) as (n & Hsteps & _ & Hall).
  rewrite Hsteps. split; [apply prefix_take|]. split.
  - eapply sublist_NoDup; [apply code_order_NoDup|apply sublist_take].
  - intros Hret. apply Hall in Hret as ->. reflexivity.
Qed.

(** ** The request *)

Lemma run_requests lib env file :
  requests (trace (run lib env file).2) =
  match lib_init lib (loaded_environ env file) with
  | Returned mgr =>
      match lib_enter lib mgr with
      | Returned c => [(c, quickstart_request)]
      | Raised _ => []
      end
  | Raised _ => []
  end.
Proof.
  pose proof (run_cases lib env file) as Hrun. cbv zeta in Hrun.
  rewrite Hrun. clear Hrun.
  destruct (lib_init lib _) as [mgr|e]; [|reflexivity].
  destruct (lib_enter lib mgr) as [c|e]; [|reflexivity].
  destruct (lib_create lib c _) as [r|e].
  - destruct (lib_exit lib mgr None); [destruct (lib_print lib r)|]; reflexivity.
  - destruct (lib_exit lib mgr (Some e)) as [[|]|]; reflexivity.
Qed.

(** C6, as the spec states it, fails: a run whose client cannot be built
    issues no request at all. *)
Lemma one_request_counterexample :
  requests (trace (run unreachable_service sample_environ None).2) = []
  /\ length (requests (trace (run unreachable_service sample_environ None).2)) <> 1.
Proof. split; [reflexivity|discriminate]. Qed.

(** C6, amended. A run that builds and enters its client issues exactly
    one request through it, and the request is the payload with model
    [gpt-4o-mini] and the single user message; any other run issues none. *)
Theorem one_request lib env file :
  let reqs := requests (trace (run lib env file).2) in
  (forall mgr c,
      lib_init lib (loaded_environ env file) = Returned mgr ->
      lib_enter lib mgr = Returned c ->
      reqs = [(c, quickstart_request)])
  /\ (~ reaches_request lib (loaded_environ env file) -> reqs = [])
  /\ length reqs <= 1.
Proof.
  cbv zeta. rewrite run_requests. unfold reaches_request.
  split; [|split].
  - intros mgr c -> ->. reflexivity.
  - intros Hnot.
    destruct (lib_init lib _) as [mgr|e]; [|reflexivity].
    destruct (lib_enter lib mgr) as [c|e] eqn:Henter; [|reflexivity].
    exfalso. apply Hnot. eauto.
  - destruct (lib_init lib _) as [mgr|e]; [|simpl; lia].
    destruct (lib_enter lib mgr); simpl; lia.
Qed.

(** The payload is the one of the spec's scenario, field by field. *)
Lemma quickstart_request_payload :
  model quickstart_request = "gpt-4o-mini"
  /\ messages quickstart_request
     = [ mkMessage "user" "Write a haiku about artificial intelligence." ].
Proof. split; reflexivity. Qed.

(** ** Propagation of errors *)









(** Were [__exit__] to swallow the request's error, the statement after
    the block would find [response] unbound: the run ends with a
    [NameError] and prints nothing. *)
Lemma swallowed_error_unbound_response lib env file mgr c e :
  lib_init lib (loaded_environ env file) = Returned mgr ->
  lib_enter lib mgr = Returned c ->
  lib_create lib c quickstart_request = Raised e ->
  lib_exit lib mgr (Some e) = Returned true ->
  (run lib env file).1 = Raised name_error
  /\ g_response (run lib env file).2 = None
  /\ stdout (run lib env file).2 = "".
Proof.
  intros Hinit Henter Hcreate Hexit.
  pose proof (run_cases lib env file) as Hrun. cbv zeta in Hrun.
  rewrite Hinit, Henter, Hcreate, Hexit in Hrun. rewrite Hrun.
  repeat split.
Qed.

Lemma swallowed_error_unbound_response_witness :
  (run swallowing_service sample_environ None).1 = Raised name_error
  /\ g_response (run swallowing_service sample_environ None).2 = None
  /\ stdout (run swallowing_service sample_environ None).2 = "".
Proof.
  exact (swallowed_error_unbound_response swallowing_service sample_environ None
           (ClientHandle 0) (ClientHandle 0) rate_limit
           eq_refl eq_refl eq_refl eq_refl).
Defined.

(** Scenario C of the spec: the service answers with a rate-limit error;
    the run ends with that error, the client was released once, on being
    handed the error, and nothing was printed. *)
Lemma rate_limit_scenario :
  (run rate_limited_service sample_environ None).1 = Raised rate_limit
  /\ releases (trace (run rate_limited_service sample_environ None).2)
     = [(ClientHandle 0, Some rate_limit)]
  /\ stdout (run rate_limited_service sample_environ None).2 = "".
Proof. repeat split. Qed.
(** ** Rendering *)

Lemma app_cons a s t : String a s +:+ t = String a (s +:+ t).
Proof. reflexivity. Qed.

Lemma string_app_assoc s t u : (s +:+ t) +:+ u = s +:+ (t +:+ u).
Proof.
  induction s as [|a s IH]; [reflexivity|].
  rewrite !app_cons, IH. reflexivity.
Qed.

Lemma string_app_nil_r s : s +:+ "" = s.
Proof.
  induction s as [|a s IH]; [reflexivity|].
  rewrite app_cons, IH. reflexivity.
Qed.

Lemma contains_refl s : contains s s.
Proof. exists "", "". rewrite string_app_nil_r. reflexivity. Qed.

Lemma contains_app_r s t a : contains s t -> contains s (a +:+ t).
Proof.
  intros (pre & post & ->). exists (a +:+ pre), post.
  rewrite string_app_assoc. reflexivity.
Qed.

Lemma contains_app_l s t b : contains s t -> contains s (t +:+ b).
Proof.
  intros (pre & post & ->). exists pre, (post +:+ b).
  rewrite !string_app_assoc. reflexivity.
Qed.

Lemma contains_concat sep s x l :
  In x l -> contains s x -> contains s (String.concat sep l).
Proof.
  intros Hin Hx. induction l as [|y l IH]; [destruct Hin|].
  destruct l as [|z l].
  - destruct Hin as [->|[]]. exact Hx.
  - change (String.concat sep (y :: z :: l))
      with (y +:+ sep +:+ String.concat sep (z :: l)).
    destruct Hin as [->|Hin].
    + apply contains_app_l, Hx.
    + apply contains_app_r, contains_app_r, IH, Hin.
Qed.

Lemma isprintable_not_control c :
  isprintable c = true ->
  Ascii.eqb c "009" = false /\ Ascii.eqb c "010" = false /\ Ascii.eqb c "013" = false.
Proof.
  intros Hp. repeat split.
  all: destruct (Ascii.eqb_spec c "009") as [->|]; try discriminate Hp.
  all: destruct (Ascii.eqb_spec c "010") as [->|]; try discriminate Hp.
  all: destruct (Ascii.eqb_spec c "013") as [->|]; try discriminate Hp.
  all: reflexivity.
Qed.

Lemma repr_char_plain q c : plain_char q c = true -> repr_char q c = String c "".
Proof.
  unfold plain_char, repr_char. intros Hp.
  apply andb_prop in Hp as [Hp Hbs]. apply andb_prop in Hp as [Hp Hq].
  apply negb_true_iff in Hbs, Hq. rewrite Hq, Hbs. simpl.
  destruct (isprintable_not_control c Hp) as (-> & -> & ->).
  rewrite Hp. reflexivity.
Qed.

Lemma repr_body_plain q s :
  all_chars (plain_char q) s = true -> repr_body q s = s.
Proof.
  induction s as [|c s IH]; simpl; [reflexivity|].
  intros Hall. apply andb_prop in Hall as [Hc Hs].
  rewrite (repr_char_plain q c Hc), (IH Hs). reflexivity.
Qed.

(** A string of plain characters shows between its quotes as it is. *)
Lemma py_repr_str_plain s :
  all_chars (plain_char (repr_quote s)) s = true ->
  contains s (py_repr_str s).
Proof.
  intros Hall. unfold py_repr_str. cbv zeta.
  rewrite (repr_body_plain _ s Hall).
  exists (String (repr_quote s) ""), (String (repr_quote s) ""). reflexivity.
Qed.

Lemma py_repr_leaf s r :
  all_chars (plain_char (repr_quote s)) s = true ->
  str_leaf s r -> contains s (py_repr r).
Proof.
  intros Hall Hleaf.
  induction Hleaf as [|vs v Hin _ IH|cls fields f v Hin _ IH]; simpl.
  - apply py_repr_str_plain, Hall.
  - apply contains_app_r, contains_app_l.
    apply (contains_concat _ _ (py_repr v)); [|exact IH].
    apply in_map, Hin.
  - apply contains_app_r, contains_app_r, contains_app_l.
    apply (contains_concat _ _ (f +:+ "=" +:+ py_repr v)).
    + apply (in_map (fun fv : string * PyVal =>
                       let '(f0, x) := fv in f0 +:+ "=" +:+ py_repr x)
               fields (f, v)), Hin.
    + apply contains_app_r, contains_app_r, IH.
Qed.

Lemma py_str_leaf s r :
  all_chars (plain_char (repr_quote s)) s = true ->
  str_leaf s r -> contains s (py_str r).
Proof.
  intros Hall Hleaf. destruct r; try (apply py_repr_leaf; assumption).
  inversion Hleaf; subst. apply contains_refl.
Qed.

Lemma all_chars_app p s t :
  all_chars p (s +:+ t) = all_chars p s && all_chars p t.
Proof.
  induction s as [|c s IH]; [reflexivity|].
  rewrite app_cons. simpl. rewrite IH. apply andb_assoc.
Qed.

Lemma has_char_false_all q s :
  has_char q s = false -> all_chars (fun c => negb (Ascii.eqb c q)) s = true.
Proof.
  induction s as [|c s IH]; simpl; [reflexivity|].
  rewrite (Ascii.eqb_sym c q).
  destruct (Ascii.eqb q c); [discriminate|]. exact IH.
Qed.

Lemma all_chars_and p1 p2 s :
  all_chars p1 s = true -> all_chars p2 s = true ->
  all_chars (fun c => p1 c && p2 c) s = true.
Proof.
  induction s as [|c s IH]; simpl; [reflexivity|].
  intros [-> H1]%andb_prop [-> H2]%andb_prop. simpl. by apply IH.
Qed.

Lemma repr_quote_absent s :
  negb (has_char "'" s && has_char dquote s) = true ->
  has_char (repr_quote s) s = false.
Proof.
  unfold repr_quote.
  destruct (has_char "'" s) eqn:Hs, (has_char dquote s) eqn:Hd; simpl;
    first [discriminate | intros _; assumption].
Qed.

Lemma ascii_printable_all s :
  all_chars is_ascii_printable s = true -> all_chars isprintable s = true.
Proof.
  induction s as [|c s IH]; simpl; [reflexivity|].
  intros [Hc Hs]%andb_prop. rewrite (IH Hs).
  unfold isprintable. unfold is_ascii_printable in Hc. cbv zeta in *.
  rewrite Hc. reflexivity.
Qed.

Lemma verbatim_safe_plain s :
  verbatim_safe s = true -> all_chars (plain_char (repr_quote s)) s = true.
Proof.
  unfold verbatim_safe.
  intros [[Hp Hbs]%andb_prop Hq]%andb_prop.
  apply ascii_printable_all in Hp.
  apply negb_true_iff in Hbs. apply repr_quote_absent in Hq.
  unfold plain_char.
  apply (all_chars_and (fun c => isprintable c && negb (Ascii.eqb c (repr_quote s)))).
  - by apply (all_chars_and isprintable), has_char_false_all.
  - by apply has_char_false_all.
Qed.

(** What a run that returns has printed: the text of the response it
    received, and a newline, as the last call it made. *)
Lemma run_returned_output lib env file :
  (run lib env file).1 = Returned tt ->
  exists r tr,
    g_response (run lib env file).2 = Some r
    /\ stdout (run lib env file).2 = py_str r +:+ newline
    /\ trace (run lib env file).2 = tr ++ [EvPrint (py_str r +:+ newline)].
Proof.
  pose proof (run_cases lib env file) as Hrun. cbv zeta in Hrun.
  rewrite Hrun. clear Hrun.
  destruct (lib_init lib _) as [mgr|e]; [|discriminate].
  destruct (lib_enter lib mgr) as [c|e]; [|discriminate].
  destruct (lib_create lib c _) as [r|e].
  - destruct (lib_exit lib mgr None); [|discriminate].
    destruct (lib_print lib r); [discriminate|].
    intros _. by eexists _, _.
  - destruct (lib_exit lib mgr (Some e)) as [[|]|]; discriminate.
Qed.

(** C5. In a run of the script that completes on a response holding the
    haiku as the content of a message, the text that [print(response)]
    writes -- the run's last call and its whole standard output --
    contains the haiku as it is. *)
Theorem haiku_rendered lib env file r :
  (run lib env file).1 = Returned tt ->
  g_response (run lib env file).2 = Some r ->
  str_leaf haiku r ->
  exists text tr,
    trace (run lib env file).2 = tr ++ [EvPrint text]
    /\ stdout (run lib env file).2 = text
    /\ contains haiku text.
Proof.
  intros Hret Hr Hleaf.
  destruct (run_returned_output lib env file Hret) as (r' & tr & Hr' & Hout & Htr).
  assert (r' = r) as -> by congruence.
  exists (py_str r +:+ newline), tr. repeat split; [done|done|].
  apply contains_app_l, py_str_leaf; [reflexivity|exact Hleaf].
Qed.

Lemma haiku_response_leaf : str_leaf haiku haiku_response.
Proof.
  eapply leaf_field; [right; left; reflexivity|].
  eapply leaf_item; [left; reflexivity|].
  eapply leaf_field; [do 3 right; left; reflexivity|].
  eapply leaf_field; [left; reflexivity|].
  apply leaf_here.
Qed.

Lemma haiku_rendered_witness :
  exists text tr,
    trace (run mock_service sample_environ None).2 = tr ++ [EvPrint text]
    /\ stdout (run mock_service sample_environ None).2 = text
    /\ contains haiku text.
Proof.
  apply (haiku_rendered mock_service sample_environ None haiku_response).
  - reflexivity.
  - reflexivity.
  - eapply leaf_field; [right; left; reflexivity|].
    eapply leaf_item; [left; reflexivity|].
    eapply leaf_field; [do 3 right; left; reflexivity|].
    eapply leaf_field; [left; reflexivity|].
    apply leaf_here.
Defined.

(** Scenario A of the spec, end to end: with the sample service the run
    returns and its output contains the haiku. *)
Lemma run_shows_haiku :
  (run mock_service sample_environ None).1 = Returned tt
  /\ contains haiku (stdout (run mock_service sample_environ None).2).
Proof.
  split; [reflexivity|].
  change (stdout (run mock_service sample_environ None).2)
    with (py_str haiku_response +:+ newline).
  apply contains_app_l, py_str_leaf; [reflexivity|apply haiku_response_leaf].
Qed.

(** In a run that completes, any text of the response made of printable
    ASCII characters, with no backslash and not both kinds of quote, is
    in the output as it is, wherever it sits in the response. *)
Theorem run_shows_safe_content lib env file (r : PyVal) (s : string) :
  (run lib env file).1 = Returned tt ->
  g_response (run lib env file).2 = Some r ->
  verbatim_safe s = true ->
  str_leaf s r ->
  contains s (stdout (run lib env file).2).
Proof.
  intros Hret Hr Hsafe Hleaf.
  destruct (run_returned_output lib env file Hret) as (r' & tr & Hr' & Hout & _).
  assert (r' = r) as -> by congruence.
  rewrite Hout.
  apply contains_app_l, py_str_leaf; [|exact Hleaf].
  apply verbatim_safe_plain, Hsafe.
Qed.

Lemma run_shows_safe_content_witness :
  contains "It's a machine's dream"
    (stdout (run quoting_service sample_environ None).2).
Proof.
  apply (run_shows_safe_content quoting_service sample_environ None quoted_reply
           "It's a machine's dream").
  - reflexivity.
  - reflexivity.
  - reflexivity.
  - eapply leaf_field; [left; reflexivity|]. apply leaf_here.
Defined.

(** ** The loader *)

(** A variable that is set is never written by the loader. *)
Lemma merge_keeps_set env bindings acc k :
  is_Some (env !! k) ->
  foldl (set_binding false env) acc bindings !! k = acc !! k.
Proof.
  intros Hset. revert acc.
  induction bindings as [|[k' v'] bindings IH]; intros acc; [reflexivity|].
  simpl. rewrite IH. case_bool_decide as Hk'; [|reflexivity].
  apply lookup_insert_ne. intros ->. rewrite Hk' in Hset. by destruct Hset.
Qed.

(** A variable that is unset takes the file's last binding of it. *)
Lemma merge_sets_unset env bindings acc k :
  env !! k = None ->
  foldl (set_binding false env) acc bindings !! k
  = (list_to_map (reverse bindings) ∪ acc : gmap string string) !! k.
Proof.
  intros Hunset. revert acc.
  induction bindings as [|[k' v'] bindings IH]; intros acc.
  - simpl. by rewrite (left_id_L ∅ (∪)).
  - simpl. rewrite IH, reverse_cons, list_to_map_app. simpl.
    rewrite !lookup_union.
    destruct (decide (k' = k)) as [->|Hne].
    + rewrite bool_decide_eq_true_2 by done.
      rewrite lookup_insert_eq, lookup_insert_eq.
      by destruct (list_to_map (reverse bindings) !! k), (acc !! k).
    + rewrite (lookup_insert_ne _ k' k) by done. rewrite lookup_empty.
      case_bool_decide; [rewrite lookup_insert_ne by done|];
        by destruct (list_to_map (reverse bindings) !! k), (acc !! k).
Qed.

Lemma loaded_environ_set env file k v :
  env !! k = Some v -> loaded_environ env file !! k = Some v.
Proof.
  intros Hk. rewrite loaded_environ_eq. destruct file as [bindings|]; [|exact Hk].
  unfold set_as_environment_variables.
  rewrite merge_keeps_set by (rewrite Hk; eauto). exact Hk.
Qed.

Lemma loaded_environ_unset env file k :
  env !! k = None ->
  loaded_environ env file !! k
  = match file with
    | None => None
    | Some bindings => (list_to_map (reverse bindings) : gmap string string) !! k
    end.
Proof.
  intros Hk. rewrite loaded_environ_eq. destruct file as [bindings|]; [|exact Hk].
  unfold set_as_environment_variables.
  rewrite merge_sets_unset by exact Hk.
  rewrite lookup_union, Hk. by destruct (list_to_map (reverse bindings) !! k).
Qed.

Lemma run_environ lib env file :
  environ (run lib env file).2 = loaded_environ env file.
Proof.
  pose proof (run_cases lib env file) as Hrun. cbv zeta in Hrun.
  rewrite Hrun. clear Hrun.
  destruct (lib_init lib _) as [mgr|e]; [|reflexivity].
  destruct (lib_enter lib mgr) as [c|e]; [|reflexivity].
  destruct (lib_create lib c _) as [r|e].
  - destruct (lib_exit lib mgr None); [destruct (lib_print lib r)|]; reflexivity.
  - destruct (lib_exit lib mgr (Some e)) as [[|]|]; reflexivity.
Qed.



(** C10. A variable that is set when the workflow starts keeps its value
    through the loader, also when the file binds the same name, and has
    it still when the run ends. *)
Theorem environ_precedence lib env file k v :
  env !! k = Some v ->
  loaded_environ env file !! k = Some v
  /\ environ (run lib env file).2 !! k = Some v.
Proof.
  intros Hk. rewrite run_environ.
  split; apply loaded_environ_set, Hk.
Qed.

Lemma environ_precedence_witness :
  loaded_environ sample_environ (Some sample_dotenv) !! "OPENAI_API_KEY"
  = Some "sk-test"
  /\ environ (run mock_service sample_environ (Some sample_dotenv)).2
       !! "OPENAI_API_KEY"
     = Some "sk-test".
Proof.
  apply (environ_precedence mock_service sample_environ (Some sample_dotenv)
           "OPENAI_API_KEY" "sk-test").
  vm_compute. reflexivity.
Defined.

(** ** The credential gate *)

(** C2. With the authentication variable unset once the loader has run,
    building the client raises an [AuthenticationError]. The run ends with
    it after the loader and the constructor alone: no request is issued,
    the client is never entered, and nothing is written to standard
    output. *)
Theorem missing_key_aborts auth_var lib env file :
  loaded_environ env file !! auth_var = None ->
  (exists msg,
      (run (with_credential_gate auth_var lib) env file).1
      = Raised (mkExn AuthenticationError msg))
  /\ steps (trace (run (with_credential_gate auth_var lib) env file).2)
     = [StLoader; StConstruct]
  /\ requests (trace (run (with_credential_gate auth_var lib) env file).2) = []
  /\ stdout (run (with_credential_gate auth_var lib) env file).2 = "".
Proof.
  intros Hunset.
  pose proof (run_cases (with_credential_gate auth_var lib) env file) as Hrun.
  cbv zeta in Hrun. simpl lib_init in Hrun.
  unfold gated_init in Hrun at 1. rewrite Hunset in Hrun.
  rewrite Hrun. repeat split. eexists. reflexivity.
Qed.

Lemma missing_key_aborts_witness :
  (exists msg,
      (run (with_credential_gate "OPENAI_API_KEY" mock_service) ∅ None).1
      = Raised (mkExn AuthenticationError msg))
  /\ steps (trace (run (with_credential_gate "OPENAI_API_KEY" mock_service) ∅ None).2)
     = [StLoader; StConstruct]
  /\ requests (trace (run (with_credential_gate "OPENAI_API_KEY" mock_service) ∅ None).2)
     = []
  /\ stdout (run (with_credential_gate "OPENAI_API_KEY" mock_service) ∅ None).2 = "".
Proof.
  apply (missing_key_aborts "OPENAI_API_KEY" mock_service ∅ None).
  reflexivity.
Defined.

(** The variable stays unset when neither the environment nor the file
    binds it. *)
Lemma unset_without_binding env file k :
  env !! k = None ->
  (forall bindings, file = Some bindings -> k ∉ bindings.*1) ->
  loaded_environ env file !! k = None.
Proof.
  intros Hk Hfile. rewrite loaded_environ_unset by exact Hk.
  destruct file as [bindings|]; [|reflexivity].
  apply not_elem_of_list_to_map_1.
  rewrite fmap_reverse, elem_of_reverse. by apply Hfile.
Qed.


(** ** When the run returns, and what it leaves *)


(** The run returns exactly when each of the four calls into the package
    returns -- the constructor, [__enter__], the request, and [__exit__]
    at the end of the block -- and printing the response raises nothing. *)
Theorem run_returns_iff lib env file :
  (run lib env file).1 = Returned tt <->
  exists mgr c r b,
    lib_init lib (loaded_environ env file) = Returned mgr
    /\ lib_enter lib mgr = Returned c
    /\ lib_create lib c quickstart_request = Returned r
    /\ lib_exit lib mgr None = Returned b
    /\ lib_print lib r = None.
Proof.
  pose proof (run_cases lib env file) as Hrun. cbv zeta in Hrun.
  rewrite Hrun. clear Hrun. split.
  - destruct (lib_init lib _) as [mgr|e]; [|discriminate].
    destruct (lib_enter lib mgr) as [c|e] eqn:He; [|discriminate].
    destruct (lib_create lib c _) as [r|e] eqn:Hc.
    + destruct (lib_exit lib mgr None) as [b|e] eqn:Hx; [|discriminate].
      destruct (lib_print lib r) eqn:Hp; [discriminate|].
      intros _. exists mgr, c, r, b. auto.
    + destruct (lib_exit lib mgr (Some e)) as [[|]|]; discriminate.
  - intros (mgr & c & r & b & -> & -> & -> & -> & ->). reflexivity.
Qed.

(** When the four calls return and printing raises nothing, the run has
    printed the response's text and a newline, and nothing else; the names
    [client] and [response] hold the entered client and the response, and
    the six calls were made in order. *)
Theorem run_success_state lib env file mgr c r b :
  lib_init lib (loaded_environ env file) = Returned mgr ->
  lib_enter lib mgr = Returned c ->
  lib_create lib c quickstart_request = Returned r ->
  lib_exit lib mgr None = Returned b ->
  lib_print lib r = None ->
  (run lib env file).1 = Returned tt
  /\ stdout (run lib env file).2 = py_str r +:+ newline
  /\ g_client (run lib env file).2 = Some c
  /\ g_response (run lib env file).2 = Some r
  /\ trace (run lib env file).2
     = [ EvLoadDotenv; EvInit (loaded_environ env file); EvEnter mgr;
         EvCreate c quickstart_request; EvExit mgr None;
         EvPrint (py_str r +:+ newline) ].
Proof.
  intros Hi He Hc Hx Hp.
  pose proof (run_cases lib env file) as Hrun. cbv zeta in Hrun.
  rewrite Hi, He, Hc, Hx, Hp in Hrun. rewrite Hrun. repeat split.
Qed.

Lemma run_success_state_witness :
  (run mock_service sample_environ None).1 = Returned tt
  /\ stdout (run mock_service sample_environ None).2
     = py_str haiku_response +:+ newline
  /\ g_client (run mock_service sample_environ None).2 = Some (ClientHandle 0)
  /\ g_response (run mock_service sample_environ None).2 = Some haiku_response
  /\ trace (run mock_service sample_environ None).2
     = [ EvLoadDotenv; EvInit (loaded_environ sample_environ None);
         EvEnter (ClientHandle 0);
         EvCreate (ClientHandle 0) quickstart_request;
         EvExit (ClientHandle 0) None;
         EvPrint (py_str haiku_response +:+ newline) ].
Proof.
  exact (run_success_state mock_service sample_environ None
           (ClientHandle 0) (ClientHandle 0) haiku_response false
           eq_refl eq_refl eq_refl eq_refl eq_refl).
Defined.


(** The response is printed after the block, hence after the release: a
    release that raises once the request has returned ends the run with
    its error, and the response, though received and bound, is never
    printed. *)
Theorem failed_release_hides_response lib env file mgr c r e :
  lib_init lib (loaded_environ env file) = Returned mgr ->
  lib_enter lib mgr = Returned c ->
  lib_create lib c quickstart_request = Returned r ->
  lib_exit lib mgr None = Raised e ->
  (run lib env file).1 = Raised e
  /\ g_response (run lib env file).2 = Some r
  /\ stdout (run lib env file).2 = ""
  /\ (StRender ∉ steps (trace (run lib env file).2)).
Proof.
  intros Hi He Hc Hx.
  pose proof (run_cases lib env file) as Hrun. cbv zeta in Hrun.
  rewrite Hi, He, Hc, Hx in Hrun. rewrite Hrun.
  repeat split. by apply (bool_decide_unpack _).
Qed.

Lemma failed_release_hides_response_witness :
  (run failing_close_service sample_environ None).1 = Raised close_error
  /\ g_response (run failing_close_service sample_environ None).2
     = Some haiku_response
  /\ stdout (run failing_close_service sample_environ None).2 = ""
  /\ (StRender ∉ steps (trace (run failing_close_service sample_environ None).2)).
Proof.
  exact (failed_release_hides_response failing_close_service sample_environ None
           (ClientHandle 0) (ClientHandle 0) haiku_response close_error
           eq_refl eq_refl eq_refl eq_refl).
Defined.

(** [__exit__] is called only on a client that was entered: when the
    constructor or [__enter__] raises there is no release, and these are
    the only runs without one. *)
Theorem release_iff_entered lib env file :
  releases (trace (run lib env file).2) = []
  <-> ~ reaches_request lib (loaded_environ env file).
Proof.
  pose proof (run_cases lib env file) as Hrun. cbv zeta in Hrun.
  rewrite Hrun. clear Hrun. unfold reaches_request.
  destruct (lib_init lib _) as [mgr|e].
  2:{ split; [|reflexivity]. intros _ (mgr & c & Hi & _). discriminate. }
  destruct (lib_enter lib mgr) as [c|e] eqn:He.
  2:{ split; [|reflexivity]. intros _ (mgr' & c & [= <-] & He'). congruence. }
  split.
  - destruct (lib_create lib c _) as [r|e].
    + destruct (lib_exit lib mgr None); [destruct (lib_print lib r)|];
        discriminate.
    + destruct (lib_exit lib mgr (Some e)) as [[|]|]; discriminate.
  - intros Hnot. exfalso. apply Hnot. eauto.
Qed.

(** Where the error of a run comes from. A run that raises ends with the
    error of the call that failed -- the constructor, [__enter__], the
    request, the release -- or with the error [__exit__] raised on being
    handed the request's error, or with the error printing raised, or,
    when [__exit__] swallowed the request's error, with the [NameError]
    of [print(response)]. The script raises nothing else. *)
Theorem run_error_origin lib env file e :
  (run lib env file).1 = Raised e ->
  raises lib (loaded_environ env file) e
  \/ (exists mgr c e0,
        lib_init lib (loaded_environ env file) = Returned mgr
        /\ lib_enter lib mgr = Returned c
        /\ lib_create lib c quickstart_request = Raised e0
        /\ (lib_exit lib mgr (Some e0) = Raised e
            \/ (lib_exit lib mgr (Some e0) = Returned true /\ e = name_error)))
  \/ (exists mgr c r b,
        lib_init lib (loaded_environ env file) = Returned mgr
        /\ lib_enter lib mgr = Returned c
        /\ lib_create lib c quickstart_request = Returned r
        /\ lib_exit lib mgr None = Returned b
        /\ lib_print lib r = Some e).
Proof.
  pose proof (run_cases lib env file) as Hrun. cbv zeta in Hrun.
  rewrite Hrun. clear Hrun.
  destruct (lib_init lib _) as [mgr|e1] eqn:Hi.
  { destruct (lib_enter lib mgr) as [c|e1] eqn:He.
    - destruct (lib_create lib c _) as [r|e1] eqn:Hc.
      + destruct (lib_exit lib mgr None) as [b|e2] eqn:Hx.
        * destruct (lib_print lib r) as [e3|] eqn:Hp; [|discriminate].
          intros [= <-]. right. right. exists mgr, c, r, b. auto.
        * intros [= <-]. left. by apply (raises_release _ _ _ mgr c r).
      + destruct (lib_exit lib mgr (Some e1)) as [[|]|e2] eqn:Hx.
        * intros [= <-]. right. left. exists mgr, c, e1.
          do 3 (split; [done|]). by right.
        * intros [= <-]. left. by apply (raises_request _ _ _ mgr c).
        * intros [= <-]. right. left. exists mgr, c, e1.
          do 3 (split; [done|]). by left.
    - intros [= <-]. left. by apply (raises_enter _ _ _ mgr). }
  intros [= <-]. left. by apply raises_construct.
Qed.

Lemma run_error_origin_witness :
  raises closed_stdout_service (loaded_environ sample_environ None) closed_pipe
  \/ (exists mgr c e0,
        lib_init closed_stdout_service (loaded_environ sample_environ None)
        = Returned mgr
        /\ lib_enter closed_stdout_service mgr = Returned c
        /\ lib_create closed_stdout_service c quickstart_request = Raised e0
        /\ (lib_exit closed_stdout_service mgr (Some e0) = Raised closed_pipe
            \/ (lib_exit closed_stdout_service mgr (Some e0) = Returned true
                /\ closed_pipe = name_error)))
  \/ (exists mgr c r b,
        lib_init closed_stdout_service (loaded_environ sample_environ None)
        = Returned mgr
        /\ lib_enter closed_stdout_service mgr = Returned c
        /\ lib_create closed_stdout_service c quickstart_request = Returned r
        /\ lib_exit closed_stdout_service mgr None = Returned b
        /\ lib_print closed_stdout_service r = Some closed_pipe).
Proof.
  apply (run_error_origin closed_stdout_service sample_environ None closed_pipe).
  reflexivity.
Defined.
